(** * ComfyUI-RTX-Remix, [nodes/common.py]: utility nodes and context plumbing

    A shallow embedding of the node classes of [nodes/common.py] and of the
    decorators that thread a [RemixContext] through a node graph, together
    with the properties the specification states about them and further
    properties read off the code.

    Python objects are embedded as terms of [value]; a call that may raise
    returns a [result]; a method that may assign to attributes of [self]
    runs in the small state-and-exception monad [M] over the attribute
    dictionary of the instance. *)

From Stdlib Require Import ZArith.
From stdpp Require Import gmap strings list fin_maps.

Set Warnings "-register-all".

Open Scope Z_scope.
Open Scope string_scope.

(** ** Python values *)

(** The class of a tuple object: a plain [tuple], or the namedtuple class
    [RemixContext = namedtuple("RemixContext", ["address", "port"])]. *)
Inductive tuple_class := PlainTuple | RemixContextCls.

(** The class of a string object: [str] itself, or [class AnyType(str)]. *)
Inductive str_class := PlainStr | AnyTypeCls.

Inductive value :=
| VNone
| VBool (b : bool)
| VInt (z : Z)
| VStr (c : str_class) (s : string)
| VTuple (c : tuple_class) (items : list value)
| VList (items : list value).

Inductive exn :=
| KeyError (key : string)
| IndexError
| TypeError
| AttributeError (name : string)
| Raised (what : string).

Inductive result (A : Type) :=
| Ok (a : A)
| Err (e : exn).
Arguments Ok {A} a.
Arguments Err {A} e.

Definition is_Err {A} (r : result A) : Prop :=
  match r with Ok _ => False | Err _ => True end.

Definition str (s : string) : value := VStr PlainStr s.
Definition tuple (items : list value) : value := VTuple PlainTuple items.

Definition is_tuple (v : value) : bool :=
  match v with VTuple _ _ => true | _ => false end.

(** [bool(v)]: the truth value of an object. *)
Definition truthy (v : value) : bool :=
  match v with
  | VNone => false
  | VBool b => b
  | VInt z => negb (z =? 0)%Z
  | VStr _ s => negb (String.eqb s "")
  | VTuple _ items | VList items =>
      match items with [] => false | _ :: _ => true end
  end.

(** [not v]. *)
Definition py_not (v : value) : value := VBool (negb (truthy v)).

(** [seq[0]]: the first item of a list or tuple, the first character of a
    string; [IndexError] when there is none, [TypeError] on an object that
    cannot be subscripted. *)
Definition getitem0 (seq : value) : result value :=
  match seq with
  | VList items | VTuple _ items =>
      match items with
      | [] => Err IndexError
      | x :: _ => Ok x
      end
  | VStr _ s =>
      match s with
      | EmptyString => Err IndexError
      | String c _ => Ok (VStr PlainStr (String c EmptyString))
      end
  | _ => Err TypeError
  end.

(** [a + b]: defined on numbers, on two strings, on two tuples and on two
    lists; the sum of two tuples (or strings) is a plain tuple (or string)
    whatever subclasses the operands have. *)
Definition py_add (a b : value) : result value :=
  match a, b with
  | VStr _ s, VStr _ t => Ok (VStr PlainStr (s +:+ t))
  | VTuple _ xs, VTuple _ ys => Ok (VTuple PlainTuple (xs ++ ys)%list)
  | VList xs, VList ys => Ok (VList (xs ++ ys)%list)
  | VInt x, VInt y => Ok (VInt (x + y))
  | VInt x, VBool y => Ok (VInt (x + Z.b2z y))
  | VBool x, VInt y => Ok (VInt (Z.b2z x + y))
  | VBool x, VBool y => Ok (VInt (Z.b2z x + Z.b2z y))
  | _, _ => Err TypeError
  end.

(** *** Comparison

    [eq_method x y] is [type(x).__eq__(x, y)]; [None] stands for
    [NotImplemented].  Numbers compare by value ([bool] is a subclass of
    [int]), strings by contents (AnyType inherits [str.__eq__]), tuples and
    lists element by element. *)
Fixpoint eq_method (x y : value) : option bool :=
  let fix items_eq (xs ys : list value) : bool :=
    match xs, ys with
    | [], [] => true
    | x :: xs', y :: ys' =>
        match eq_method x y with
        | Some true => items_eq xs' ys'
        | _ => false
        end
    | _, _ => false
    end in
  match x, y with
  | VNone, VNone => Some true
  | VBool a, VBool b => Some (Bool.eqb a b)
  | VBool a, VInt b => Some (Z.b2z a =? b)%Z
  | VInt a, VBool b => Some (a =? Z.b2z b)%Z
  | VInt a, VInt b => Some (a =? b)%Z
  | VStr _ s, VStr _ t => Some (String.eqb s t)
  | VTuple _ xs, VTuple _ ys => Some (items_eq xs ys)
  | VList xs, VList ys => Some (items_eq xs ys)
  | _, _ => None
  end.

(** [type(x).__ne__(x, y)]: AnyType overrides it to answer [False] always;
    every other class negates the answer of its [__eq__]. *)
Definition ne_method (x y : value) : option bool :=
  match x with
  | VStr AnyTypeCls _ => Some false
  | _ => negb <$> eq_method x y
  end.

(** Python tries the right operand's method first when the right operand
    is an instance of a proper subclass of the left operand's class that
    overrides the method.  Here that is AnyType against [str], for [__ne__]
    only: AnyType does not define [__eq__]. *)
Definition reflected_ne_first (x y : value) : bool :=
  match x, y with
  | VStr PlainStr _, VStr AnyTypeCls _ => true
  | _, _ => false
  end.

(** [x == y]: the left method, then the reflected one, then identity; two
    objects whose methods both decline are of different classes, so they
    are not the same object. *)
Definition py_eq (x y : value) : bool :=
  match eq_method x y with
  | Some b => b
  | None => match eq_method y x with Some b => b | None => false end
  end.

(** [x != y]. *)
Definition py_ne (x y : value) : bool :=
  let first := if reflected_ne_first x y then ne_method y x else ne_method x y in
  let second := if reflected_ne_first x y then ne_method x y else ne_method y x in
  match first with
  | Some b => b
  | None => match second with Some b => b | None => true end
  end.

(** ** Calls, instances and the execution monad *)

Definition result_bind {A B} (r : result A) (k : A -> result B) : result B :=
  match r with
  | Ok a => k a
  | Err e => Err e
  end.

(** A node instance is its attribute dictionary. *)
Abbreviation instance := (gmap string value).
(** The keyword arguments of a call. *)
Abbreviation kwargs := (gmap string value).

(** A computation that may assign to attributes of the instance and may
    raise; assignments made before an exception stay made. *)
Definition M (A : Type) : Type := instance -> instance * result A.

Definition raise {A} (e : exn) : M A := fun self => (self, Err e).
Definition lift {A} (r : result A) : M A := fun self => (self, r).

#[global] Instance M_ret : MRet M := fun A a self => (self, Ok a).
#[global] Instance M_bind : MBind M := fun A B k m self =>
  match m self with
  | (self', Ok a) => k a self'
  | (self', Err e) => (self', Err e)
  end.

(** [self.name = v] *)
Definition setattr (name : string) (v : value) : M unit :=
  fun self => (<[name := v]> self, Ok tt).

(** [self.name] *)
Definition getattr (name : string) : M value :=
  fun self =>
    match self !! name with
    | Some v => (self, Ok v)
    | None => (self, Err (AttributeError name))
    end.

(** A function taking [self], positional and keyword arguments. *)
Definition method : Type := list value -> kwargs -> M value.

(** [kwargs.pop(key)]: the value and the dictionary without the key, or
    [KeyError]. *)
Definition pop (key : string) (kw : kwargs) : result (value * kwargs) :=
  match kw !! key with
  | Some v => Ok (v, delete key kw)
  | None => Err (KeyError key)
  end.

(** Binding the arguments of a call to the parameters that follow [self] in
    a [def]; each parameter comes with its default, if it has one.  Too
    many positional arguments, a parameter given twice, an unknown keyword
    or a missing argument raise [TypeError]. *)
Fixpoint bind_params (params : list (string * option value))
    (args : list value) (kw : kwargs) : result (list value) :=
  match params with
  | [] =>
      match args, map_to_list kw with
      | [], [] => Ok []
      | _, _ => Err TypeError
      end
  | (p, dflt) :: params' =>
      match args with
      | a :: args' =>
          match kw !! p with
          | Some _ => Err TypeError
          | None => result_bind (bind_params params' args' kw) (fun vs => Ok (a :: vs))
          end
      | [] =>
          match kw !! p, dflt with
          | Some v, _ =>
              result_bind (bind_params params' [] (delete p kw)) (fun vs => Ok (v :: vs))
          | None, Some v =>
              result_bind (bind_params params' [] kw) (fun vs => Ok (v :: vs))
          | None, None => Err TypeError
          end
      end
  end.

(** ** Input schemas and node classes *)

(** [(type_name, options)] *)
Abbreviation input_spec := (value * gmap string value)%type.
(** [{"required": {name: (type_name, options)}, "optional": {...}}] *)
Abbreviation schema := (gmap string (gmap string input_spec)).

(** The entry a schema declares for an input of a section, if any. *)
Definition entry (s : schema) (section name : string) : option input_spec :=
  s !! section ≫= (.!! name).

(** The attributes of a node class that the host and the decorators read.
    [RETURN_TYPES], [RETURN_NAMES] and [OUTPUT_IS_LIST] may be absent: the
    decorators read them with [getattr(cls, ..., ())] and [hasattr]. *)
Record node_class := {
  INPUT_TYPES : unit -> schema;
  RETURN_TYPES : option (list value);
  RETURN_NAMES : option (list string);
  OUTPUT_IS_LIST : option (list bool);
  INPUT_IS_LIST : bool;
  OUTPUT_NODE : bool;
  FUNCTION : string;
  CATEGORY : string;
  methods : gmap string method
}.

Definition _file_name : string := "common".

(** [RemixContext(address, port)] *)
Definition RemixContext (address port : value) : value :=
  VTuple RemixContextCls [address; port].

(** The fields of a namedtuple are read by position: [address] is item 0,
    [port] is item 1. *)
Definition RemixContext_address (c : value) : option value :=
  match c with VTuple RemixContextCls items => items !! 0%nat | _ => None end.
Definition RemixContext_port (c : value) : option value :=
  match c with VTuple RemixContextCls items => items !! 1%nat | _ => None end.

(** [def name(self, params): body] as a method of a class. *)
Definition def (params : list (string * option value))
    (body : list value -> M value) : method :=
  fun args kw => vs ← lift (bind_params params args kw); body vs.

(** [setattr(cls, "INPUT_TYPES", f)] *)
Definition set_INPUT_TYPES (f : unit -> schema) (cls : node_class) : node_class :=
  {| INPUT_TYPES := f;
     RETURN_TYPES := RETURN_TYPES cls;
     RETURN_NAMES := RETURN_NAMES cls;
     OUTPUT_IS_LIST := OUTPUT_IS_LIST cls;
     INPUT_IS_LIST := INPUT_IS_LIST cls;
     OUTPUT_NODE := OUTPUT_NODE cls;
     FUNCTION := FUNCTION cls;
     CATEGORY := CATEGORY cls;
     methods := methods cls |}.

(** [setattr(cls, name, f)] for a method name. *)
Definition set_method (name : string) (f : method) (cls : node_class) : node_class :=
  {| INPUT_TYPES := INPUT_TYPES cls;
     RETURN_TYPES := RETURN_TYPES cls;
     RETURN_NAMES := RETURN_NAMES cls;
     OUTPUT_IS_LIST := OUTPUT_IS_LIST cls;
     INPUT_IS_LIST := INPUT_IS_LIST cls;
     OUTPUT_NODE := OUTPUT_NODE cls;
     FUNCTION := FUNCTION cls;
     CATEGORY := CATEGORY cls;
     methods := <[name := f]> (methods cls) |}.

(** ** The context-propagation wrapper *)

(** [class ContextExecutionFuncWrapper]: [__init__] stores the function. *)
Record ContextExecutionFuncWrapper := { func : method }.

(** [ContextExecutionFuncWrapper.__get__(self, instance, owner)] returns
    [wrapper]; the host looks the execution method up on a node instance,
    which is the state of the monad here.  [wrapper] pops the two keys in
    turn, storing each on the instance as soon as it is popped, reads
    [instance.context] for the left operand of [+], and only then calls the
    original function on the instance and the remaining arguments. *)
Definition ContextExecutionFuncWrapper__get__
    (self : ContextExecutionFuncWrapper) : method :=
  fun args kwargs =>
    '(context, kwargs) ← lift (pop "context" kwargs);
    setattr "context" context;;
    '(enable_this_node, kwargs) ← lift (pop "enable_this_node" kwargs);
    setattr "enable_this_node" enable_this_node;;
    context ← getattr "context";
    r ← func self args kwargs;
    lift (py_add (tuple [context]) r).

(** ** Execution functions of the leaf nodes *)

(** [RestAPIDetails.get_address] *)
Definition RestAPIDetails_get_address (address port : value) : value :=
  tuple [address; port].

(** [StartContext.execute] *)
Definition StartContext_execute (address port : value) : value :=
  tuple [RemixContext address port].

(** [EndContext.execute] *)
Definition EndContext_execute (context : value) : value :=
  tuple [].

(** [StringConstant.get_string] *)
Definition StringConstant_get_string (string : value) : value :=
  tuple [string].

(** [StringConcatenate.execute(self, string1, string2, separator="_")];
    an omitted [separator] is [None] here. *)
Definition StringConcatenate_execute (string1 string2 : value)
    (separator : option value) : result value :=
  let separator := default (str "_") separator in
  result_bind (py_add string1 separator) (fun s1 =>
  result_bind (py_add s1 string2) (fun s => Ok (tuple [s]))).

(** [AnyType("*")] *)
Definition _any : value := VStr AnyTypeCls "*".

(** [Switch.execute] *)
Definition Switch_execute (if_true if_false switcher : value) : result value :=
  result_bind (getitem0 switcher) (fun s0 =>
  Ok (tuple [if truthy s0 then if_true else if_false])).

(** [InvertBool.execute] *)
Definition InvertBool_execute (v : value) : value :=
  tuple [py_not v].

(** [StrToList.execute] *)
Definition StrToList_execute (v : value) : value :=
  tuple [VList [v]].

(** The host feeds output slot [i] of a node's result tuple to the input it
    is linked to. *)
Definition output_slot (i : nat) (r : value) : option value :=
  match r with
  | VTuple _ items => items !! i
  | _ => None
  end.

(** ** Schema builders, class decorators and node classes

    [CONTEXT_TYPE] and [PREFIX_MENU] come from [nodes/constant.py] and
    [merge_dict] from [nodes/utils.py]; the definitions below take them as
    parameters. *)
Section Nodes.

Variable CONTEXT_TYPE : value.
Variable PREFIX_MENU : string.
Variable merge_dict : schema -> schema -> schema.

Definition get_context_inputs (_ : unit) : schema :=
  {[ "required" :=
       {[ "context" := (CONTEXT_TYPE, {[ "forceInput" := VBool true ]}) ]} ]}.

Definition get_enabled_inputs (_ : unit) : schema :=
  {[ "required" :=
       {[ "enable_this_node" := (str "BOOLEAN", {[ "default" := VBool true ]}) ]} ]}.

Definition get_remix_api_inputs (_ : unit) : schema :=
  {[ "required" :=
       {[ "address" := (str "STRING", {[ "forceInput" := VBool true ]});
          "port" := (str "INT", {[ "forceInput" := VBool true ]}) ]} ]}.

(** [wrap_input_types_with(func, input_fn)]: the returned [wrapper] ignores
    its arguments and merges the two schemas anew at every call. *)
Definition wrap_input_types_with (func input_fn : unit -> schema) : unit -> schema :=
  fun _ => merge_dict (input_fn tt) (func tt).

(** [add_context_outputs(cls)] *)
Definition add_context_outputs (cls : node_class) : node_class :=
  {| INPUT_TYPES := INPUT_TYPES cls;
     RETURN_TYPES := Some (CONTEXT_TYPE :: default [] (RETURN_TYPES cls));
     RETURN_NAMES := Some ("context" :: default [] (RETURN_NAMES cls));
     OUTPUT_IS_LIST :=
       match OUTPUT_IS_LIST cls with
       | Some l => Some (false :: l)
       | None => None
       end;
     INPUT_IS_LIST := INPUT_IS_LIST cls;
     OUTPUT_NODE := OUTPUT_NODE cls;
     FUNCTION := FUNCTION cls;
     CATEGORY := CATEGORY cls;
     methods := methods cls |}.

(** [add_context_input_enabled_and_output(cls)]; [getattr(cls,
    function_name)] raises [AttributeError] when the class has no method of
    the name [FUNCTION] gives. *)
Definition add_context_input_enabled_and_output (cls : node_class)
    : result node_class :=
  let cls := add_context_outputs cls in
  let cls :=
    set_INPUT_TYPES (wrap_input_types_with (INPUT_TYPES cls) get_context_inputs) cls in
  let cls :=
    set_INPUT_TYPES (wrap_input_types_with (INPUT_TYPES cls) get_enabled_inputs) cls in
  let function_name := FUNCTION cls in
  match methods cls !! function_name with
  | None => Err (AttributeError function_name)
  | Some func =>
      let wrapped_func := {| func := func |} in
      Ok (set_method function_name (ContextExecutionFuncWrapper__get__ wrapped_func) cls)
  end.

Definition category : string := PREFIX_MENU +:+ "/" +:+ _file_name.

Definition RestAPIDetails : node_class :=
  {| INPUT_TYPES := fun _ =>
       {[ "required" :=
            {[ "address" :=
                 (str "STRING",
                  {[ "multiline" := VBool false; "default" := str "127.0.0.1" ]});
               "port" :=
                 (str "INT",
                  {[ "default" := VInt 8011; "min" := VInt 0; "max" := VInt 65353;
                     "step" := VInt 1; "display" := str "number" ]}) ]} ]};
     RETURN_TYPES := Some [str "STRING"; str "INT"];
     RETURN_NAMES := Some ["address"; "port"];
     OUTPUT_IS_LIST := None;
     INPUT_IS_LIST := false;
     OUTPUT_NODE := false;
     FUNCTION := "get_address";
     CATEGORY := category;
     methods :=
       {[ "get_address" :=
            def [("address", None); ("port", None)] (fun vs =>
              match vs with
              | [address; port] => mret (RestAPIDetails_get_address address port)
              | _ => raise TypeError
              end) ]} |}.

(** [@add_context_outputs class StartContext] *)
Definition StartContext : node_class :=
  add_context_outputs
  {| INPUT_TYPES := fun _ =>
       {[ "required" :=
            {[ "address" := (str "STRING", {[ "forceInput" := VBool true ]});
               "port" := (str "INT", {[ "forceInput" := VBool true ]}) ]} ]};
     RETURN_TYPES := Some [];
     RETURN_NAMES := Some [];
     OUTPUT_IS_LIST := None;
     INPUT_IS_LIST := false;
     OUTPUT_NODE := false;
     FUNCTION := "execute";
     CATEGORY := category;
     methods :=
       {[ "execute" :=
            def [("address", None); ("port", None)] (fun vs =>
              match vs with
              | [address; port] => mret (StartContext_execute address port)
              | _ => raise TypeError
              end) ]} |}.

Definition EndContext : node_class :=
  {| INPUT_TYPES := fun _ =>
       {[ "required" :=
            {[ "context" := (CONTEXT_TYPE, {[ "forceInput" := VBool true ]}) ]} ]};
     RETURN_TYPES := Some [];
     RETURN_NAMES := Some [];
     OUTPUT_IS_LIST := None;
     INPUT_IS_LIST := false;
     OUTPUT_NODE := true;
     FUNCTION := "execute";
     CATEGORY := category;
     methods :=
       {[ "execute" :=
            def [("context", None)] (fun vs =>
              match vs with
              | [context] => mret (EndContext_execute context)
              | _ => raise TypeError
              end) ]} |}.

Definition StringConstant : node_class :=
  {| INPUT_TYPES := fun _ =>
       {[ "required" :=
            {[ "string" :=
                 (str "STRING", {[ "default" := str ""; "multiline" := VBool true ]}) ]} ]};
     RETURN_TYPES := Some [str "STRING"];
     RETURN_NAMES := None;
     OUTPUT_IS_LIST := None;
     INPUT_IS_LIST := false;
     OUTPUT_NODE := false;
     FUNCTION := "get_string";
     CATEGORY := category;
     methods :=
       {[ "get_string" :=
            def [("string", None)] (fun vs =>
              match vs with
              | [string] => mret (StringConstant_get_string string)
              | _ => raise TypeError
              end) ]} |}.

Definition StringConcatenate : node_class :=
  {| INPUT_TYPES := fun _ =>
       {[ "required" :=
            {[ "string1" :=
                 (str "STRING", {[ "default" := str ""; "forceInput" := VBool true ]});
               "string2" :=
                 (str "STRING", {[ "default" := str ""; "forceInput" := VBool true ]}) ]};
          "optional" :=
            {[ "separator" := (str "STRING", {[ "default" := str "_" ]}) ]} ]};
     RETURN_TYPES := Some [str "STRING"];
     RETURN_NAMES := None;
     OUTPUT_IS_LIST := None;
     INPUT_IS_LIST := false;
     OUTPUT_NODE := false;
     FUNCTION := "execute";
     CATEGORY := category;
     methods :=
       {[ "execute" :=
            def [("string1", None); ("string2", None); ("separator", Some (str "_"))]
              (fun vs =>
              match vs with
              | [string1; string2; separator] =>
                  lift (StringConcatenate_execute string1 string2 (Some separator))
              | _ => raise TypeError
              end) ]} |}.

Definition Switch : node_class :=
  {| INPUT_TYPES := fun _ =>
       {[ "required" :=
            {[ "if_true" := (_any, ∅);
               "if_false" := (_any, ∅);
               "switcher" :=
                 (str "BOOLEAN", {[ "default" := VBool true; "forceInput" := VBool true ]}) ]} ]};
     RETURN_TYPES := Some [_any];
     RETURN_NAMES := None;
     OUTPUT_IS_LIST := Some [true];
     INPUT_IS_LIST := true;
     OUTPUT_NODE := false;
     FUNCTION := "execute";
     CATEGORY := category;
     methods :=
       {[ "execute" :=
            def [("if_true", None); ("if_false", None); ("switcher", None)] (fun vs =>
              match vs with
              | [if_true; if_false; switcher] =>
                  lift (Switch_execute if_true if_false switcher)
              | _ => raise TypeError
              end) ]} |}.

Definition InvertBool : node_class :=
  {| INPUT_TYPES := fun _ =>
       {[ "required" :=
            {[ "value" :=
                 (str "BOOLEAN", {[ "default" := VBool true; "forceInput" := VBool true ]}) ]} ]};
     RETURN_TYPES := Some [str "BOOLEAN"];
     RETURN_NAMES := None;
     OUTPUT_IS_LIST := None;
     INPUT_IS_LIST := false;
     OUTPUT_NODE := false;
     FUNCTION := "execute";
     CATEGORY := category;
     methods :=
       {[ "execute" :=
            def [("value", None)] (fun vs =>
              match vs with
              | [v] => mret (InvertBool_execute v)
              | _ => raise TypeError
              end) ]} |}.

Definition StrToList : node_class :=
  {| INPUT_TYPES := fun _ =>
       {[ "required" :=
            {[ "value" := (str "STRING", {[ "forceInput" := VBool true ]}) ]} ]};
     RETURN_TYPES := Some [str "STRING"];
     RETURN_NAMES := None;
     OUTPUT_IS_LIST := Some [true];
     INPUT_IS_LIST := false;
     OUTPUT_NODE := false;
     FUNCTION := "execute";
     CATEGORY := category;
     methods :=
       {[ "execute" :=
            def [("value", None)] (fun vs =>
              match vs with
              | [v] => mret (StrToList_execute v)
              | _ => raise TypeError
              end) ]} |}.

End Nodes.

(** Modelled from the spec: [merge_dict] of [nodes/utils.py], which is not
    among the sources.  The specification has the decorators "merge extra
    input-schema entries into a node's declared inputs": the merged schema
    has the sections of both arguments, and a section they share has the
    entries of both; where both declare an entry of the same name, this
    model keeps the one of the second argument. *)
Definition utils_merge_dict (d1 d2 : schema) : schema :=
  union_with (fun s1 s2 => Some (s2 ∪ s1)) d1 d2.

(** What the decorators need of a dictionary merge, whichever argument it
    prefers on a clash: an entry of the merged schema is an entry of one of
    the two, and an entry both lack is lacking. *)
Definition merges_entries (merge : schema -> schema -> schema) : Prop :=
  forall d1 d2 section name,
    match entry (merge d1 d2) section name with
    | Some spec =>
        entry d1 section name = Some spec \/ entry d2 section name = Some spec
    | None => entry d1 section name = None /\ entry d2 section name = None
    end.

(** A node whose execution function reads the flag the wrapper stored:
    [def execute(self): return (self.enable_this_node,)]. *)
Definition reads_enable_flag : method :=
  def [] (fun _ => flag ← getattr "enable_this_node"; mret (tuple [flag])).

(** A node whose execution function returns its output as a list rather
    than a tuple: [def execute(self): return [True]]. *)
Definition returns_list : method :=
  def [] (fun _ => mret (VList [VBool true])).

(** A node whose execution function raises:
    [def execute(self): raise RuntimeError("unreachable")]. *)
Definition raises_error : method :=
  def [] (fun _ => raise (Raised "unreachable")).

(** A node whose execution function takes whatever it is given and
    returns no output: [def execute(self, *args, **kwargs): return ()]. *)
Definition returns_nothing : method :=
  fun _ _ => mret (tuple []).

(** The host looks [FUNCTION] up on an instance and calls it with the
    inputs as keyword arguments. *)
Definition run (cls : node_class) (kw : kwargs) : M value :=
  match (methods cls !! FUNCTION cls : option method) with
  | Some f => f [] kw
  | None => raise (AttributeError (FUNCTION cls))
  end.

(** The node classes [nodes/common.py] defines, in the order of the file. *)
Definition node_classes (CONTEXT_TYPE : value) (PREFIX_MENU : string)
    : list node_class :=
  [ RestAPIDetails PREFIX_MENU;
    StartContext CONTEXT_TYPE PREFIX_MENU;
    EndContext CONTEXT_TYPE PREFIX_MENU;
    StringConstant PREFIX_MENU;
    StringConcatenate PREFIX_MENU;
    Switch PREFIX_MENU;
    InvertBool PREFIX_MENU;
    StrToList PREFIX_MENU ].


(** * Properties *)

(** ** The leaf nodes as the host runs them *)

Ltac call_step :=
  first
    [ rewrite lookup_insert_eq
    | rewrite lookup_insert_ne by done
    | rewrite lookup_singleton_eq
    | rewrite lookup_singleton_ne by done
    | rewrite lookup_empty
    | rewrite delete_insert_eq
    | rewrite delete_insert_ne by done
    | rewrite delete_singleton_eq
    | rewrite delete_singleton_ne by done
    | rewrite delete_empty
    | rewrite map_to_list_empty
    | progress cbn [bind_params result_bind] ].

(** Binds the keyword arguments of a call to the parameters of the [def]. *)
Ltac call := unfold run, def, lift, mbind, M_bind; simpl; repeat call_step.

Lemma run_StartContext (CONTEXT_TYPE : value) (PREFIX_MENU : string)
    (address port : value) (self : instance) :
  run (StartContext CONTEXT_TYPE PREFIX_MENU)
      {[ "address" := address; "port" := port ]} self
  = (self, Ok (StartContext_execute address port)).
Proof. call. reflexivity. Qed.

Lemma run_EndContext (CONTEXT_TYPE : value) (PREFIX_MENU : string)
    (context : value) (self : instance) :
  run (EndContext CONTEXT_TYPE PREFIX_MENU) {[ "context" := context ]} self
  = (self, Ok (tuple [])).
Proof. call. reflexivity. Qed.

Lemma run_StringConcatenate (PREFIX_MENU : string) (a b s : value) (self : instance) :
  run (StringConcatenate PREFIX_MENU)
      {[ "string1" := a; "string2" := b; "separator" := s ]} self
  = (self, StringConcatenate_execute a b (Some s)).
Proof. call. reflexivity. Qed.

Lemma run_StringConcatenate_default (PREFIX_MENU : string) (a b : value)
    (self : instance) :
  run (StringConcatenate PREFIX_MENU) {[ "string1" := a; "string2" := b ]} self
  = (self, StringConcatenate_execute a b None).
Proof. call. reflexivity. Qed.

Lemma run_Switch (PREFIX_MENU : string) (x y switcher : value) (self : instance) :
  run (Switch PREFIX_MENU)
      {[ "if_true" := x; "if_false" := y; "switcher" := switcher ]} self
  = (self, Switch_execute x y switcher).
Proof. call. reflexivity. Qed.

Lemma run_InvertBool (PREFIX_MENU : string) (v : value) (self : instance) :
  run (InvertBool PREFIX_MENU) {[ "value" := v ]} self
  = (self, Ok (InvertBool_execute v)).
Proof. call. reflexivity. Qed.

Lemma run_StrToList (PREFIX_MENU : string) (v : value) (self : instance) :
  run (StrToList PREFIX_MENU) {[ "value" := v ]} self
  = (self, Ok (StrToList_execute v)).
Proof. call. reflexivity. Qed.

(** ** Leaf nodes *)

(** C3. [Switch.execute] with a selector batch whose first element is the
    boolean [b] returns [if_true] when [b] is true and [if_false] when it is
    false, for any two values whatever their types; so does the node when
    the host runs it. *)
Theorem Switch_execute_selects (PREFIX_MENU : string) (x y : value) (b : bool)
    (rest : list value) (self : instance) :
  Switch_execute x y (VList (VBool b :: rest)) = Ok (tuple [if b then x else y])
  /\ Switch_execute x y (VList (VBool true :: rest)) = Ok (tuple [x])
  /\ Switch_execute x y (VList (VBool false :: rest)) = Ok (tuple [y])
  /\ run (Switch PREFIX_MENU)
        {[ "if_true" := x; "if_false" := y; "switcher" := VList (VBool b :: rest) ]} self
     = (self, Ok (tuple [if b then x else y])).
Proof.
  assert (forall b', Switch_execute x y (VList (VBool b' :: rest))
                     = Ok (tuple [if b' then x else y])) as Hsel
    by (intros b'; unfold Switch_execute; simpl; reflexivity).
  split; [apply Hsel |]. split; [apply (Hsel true) |]. split; [apply (Hsel false) |].
  rewrite run_Switch, Hsel. reflexivity.
Qed.

(** C10. [Switch.execute] reads only the first element of its selector:
    on a non-empty selector list it returns, whatever follows the first
    element, and on the empty list it raises [IndexError]. *)
Theorem Switch_execute_first_only (x y s0 : value) (rest rest' : list value) :
  (exists v, Switch_execute x y (VList (s0 :: rest)) = Ok v)
  /\ Switch_execute x y (VList (s0 :: rest)) = Switch_execute x y (VList (s0 :: rest'))
  /\ Switch_execute x y (VList []) = Err IndexError.
Proof.
  repeat split.
  eexists. unfold Switch_execute. simpl. reflexivity.
Qed.

(** C5. [StringConcatenate.execute(a, b, s)] on strings returns the
    one-element tuple holding [a + s + b]; a call that gives no separator
    uses ["_"]. *)
Theorem StringConcatenate_execute_spec (PREFIX_MENU : string) (ca cb cs : str_class)
    (a b s : string) (self : instance) :
  StringConcatenate_execute (VStr ca a) (VStr cb b) (Some (VStr cs s))
    = Ok (tuple [str ((a +:+ s) +:+ b)])
  /\ StringConcatenate_execute (VStr ca a) (VStr cb b) None
    = Ok (tuple [str ((a +:+ "_") +:+ b)])
  /\ run (StringConcatenate PREFIX_MENU)
        {[ "string1" := VStr ca a; "string2" := VStr cb b; "separator" := VStr cs s ]}
        self
    = (self, Ok (tuple [str ((a +:+ s) +:+ b)]))
  /\ run (StringConcatenate PREFIX_MENU)
        {[ "string1" := VStr ca a; "string2" := VStr cb b ]} self
    = (self, Ok (tuple [str ((a +:+ "_") +:+ b)])).
Proof.
  split; [reflexivity |]. split; [reflexivity |]. split.
  - rewrite run_StringConcatenate. reflexivity.
  - rewrite run_StringConcatenate_default. reflexivity.
Qed.

(** C6. [InvertBool.execute] sends true to false and false to true, and
    feeding its output back into it gives the input again. *)
Theorem InvertBool_execute_involutive (PREFIX_MENU : string) (x : bool)
    (self : instance) :
  InvertBool_execute (VBool true) = tuple [VBool false]
  /\ InvertBool_execute (VBool false) = tuple [VBool true]
  /\ (output_slot 0 (InvertBool_execute (VBool x)) ≫= fun v =>
      output_slot 0 (InvertBool_execute v)) = Some (VBool x)
  /\ (v ← run (InvertBool PREFIX_MENU) {[ "value" := VBool x ]};
      w ← lift (from_option Ok (Err IndexError) (output_slot 0 v));
      run (InvertBool PREFIX_MENU) {[ "value" := w ]}) self
     = (self, Ok (tuple [VBool x])).
Proof.
  split; [reflexivity |]. split; [reflexivity |]. split.
  - destruct x; reflexivity.
  - unfold mbind, M_bind. rewrite run_InvertBool. simpl.
    rewrite run_InvertBool. destruct x; reflexivity.
Qed.

(** C8. [StrToList.execute(s)] returns a one-element tuple whose element is
    a one-element list holding exactly [s]. *)
Theorem StrToList_execute_singleton (PREFIX_MENU : string) (c : str_class)
    (s : string) (self : instance) :
  StrToList_execute (VStr c s) = tuple [VList [VStr c s]]
  /\ (exists items,
        output_slot 0 (StrToList_execute (VStr c s)) = Some (VList items)
        /\ length items = 1%nat
        /\ items !! 0%nat = Some (VStr c s))
  /\ output_slot 1 (StrToList_execute (VStr c s)) = None
  /\ run (StrToList PREFIX_MENU) {[ "value" := VStr c s ]} self
     = (self, Ok (tuple [VList [VStr c s]])).
Proof.
  split; [reflexivity |]. split.
  - exists [VStr c s]. repeat split.
  - split; [reflexivity |]. rewrite run_StrToList. reflexivity.
Qed.

Lemma eq_method_refl_context (address : string) (port : Z) :
  eq_method (RemixContext (str address) (VInt port)) (tuple [str address; VInt port])
  = Some true.
Proof.
  simpl. rewrite String.eqb_refl, Z.eqb_refl. reflexivity.
Qed.

(** C7. [StartContext.execute(address, port)] outputs a context whose
    fields are [address] and [port] and which compares equal to the pair
    [(address, port)]; [EndContext.execute] returns the empty tuple, and the
    call assigns nothing: the instance, its only state, is as before, and
    the context it was given is an immutable tuple. *)
Theorem StartContext_EndContext_spec (CONTEXT_TYPE : value) (PREFIX_MENU : string)
    (address : string) (port : Z) (context : value) (self : instance) :
  let c := RemixContext (str address) (VInt port) in
  StartContext_execute (str address) (VInt port) = tuple [c]
  /\ RemixContext_address c = Some (str address)
  /\ RemixContext_port c = Some (VInt port)
  /\ py_eq c (tuple [str address; VInt port]) = true
  /\ run (StartContext CONTEXT_TYPE PREFIX_MENU)
        {[ "address" := str address; "port" := VInt port ]} self
     = (self, Ok (tuple [c]))
  /\ EndContext_execute context = tuple []
  /\ run (EndContext CONTEXT_TYPE PREFIX_MENU) {[ "context" := context ]} self
     = (self, Ok (tuple [])).
Proof.
  intros c.
  split; [reflexivity |]. split; [reflexivity |]. split; [reflexivity |]. split.
  - unfold py_eq, c. rewrite eq_method_refl_context. reflexivity.
  - split; [rewrite run_StartContext; reflexivity |].
    split; [reflexivity | apply run_EndContext].
Qed.

(** ** The match-all type *)

Lemma ne_method_any (v : value) : ne_method _any v = Some false.
Proof. reflexivity. Qed.

Lemma eq_method_any (v : value) :
  eq_method _any v = match v with VStr _ t => Some (String.eqb "*" t) | _ => None end.
Proof. destruct v; reflexivity. Qed.

Lemma eq_method_to_any (v : value) :
  eq_method v _any = match v with VStr _ t => Some (String.eqb t "*") | _ => None end.
Proof. destruct v; reflexivity. Qed.

(** C4, as the specification states it, fails: the equality comparison of
    the match-all value with the type name ["IMAGE"] does not report
    equal, although the inequality comparison answers false. *)
Lemma any_type_eq_not_always :
  py_ne _any (str "IMAGE") = false
  /\ py_eq _any (str "IMAGE") = false
  /\ ~ (forall v, py_ne _any v = false /\ py_eq _any v = true).
Proof.
  split; [reflexivity |]. split; [reflexivity |].
  intros H. destruct (H (str "IMAGE")) as [_ Heq]. discriminate Heq.
Qed.

(** C4, amended.  For every object [v], the inequality comparison of the
    match-all value with [v] answers false, whichever side the match-all
    value stands on; the equality comparison is the one of [str] and
    reports equal exactly when [v] is a string that reads ["*"]. *)
Theorem any_type_never_unequal (v : value) :
  py_ne _any v = false
  /\ py_ne v _any = false
  /\ (py_eq _any v = true <-> exists c, v = VStr c "*").
Proof.
  split; [reflexivity |]. split.
  - unfold py_ne.
    destruct v as [| b | z | c s | c items | items]; try reflexivity.
    destruct c; reflexivity.
  - unfold py_eq. rewrite eq_method_any, eq_method_to_any.
    destruct v as [| b | z | c s | c items | items];
      try (split; [discriminate | intros [c' Hc]; discriminate]).
    rewrite String.eqb_eq. split.
    + intros <-. eauto.
    + intros [c' Hc]. congruence.
Qed.

(** ** The wrapped execution method *)

(** The wrapper, step by step: a missing ["context"] raises before anything
    is stored; a missing ["enable_this_node"] raises once the context is
    stored; otherwise the original function runs on the instance carrying
    both, with the two keys taken out of the keyword arguments, and the
    context is prepended to what it returns. *)
Lemma wrapper_unfold (f : method) (args : list value) (kw : kwargs) (self : instance) :
  ContextExecutionFuncWrapper__get__ {| func := f |} args kw self =
  match kw !! "context" with
  | None => (self, Err (KeyError "context"))
  | Some c =>
      match kw !! "enable_this_node" with
      | None => (<["context" := c]> self, Err (KeyError "enable_this_node"))
      | Some e =>
          match f args (delete "enable_this_node" (delete "context" kw))
                  (<["enable_this_node" := e]> (<["context" := c]> self)) with
          | (self', Ok r) => (self', py_add (tuple [c]) r)
          | (self', Err x) => (self', Err x)
          end
      end
  end.
Proof.
  unfold ContextExecutionFuncWrapper__get__, pop, lift, setattr, getattr.
  unfold mbind, M_bind. simpl.
  destruct (kw !! "context") as [c |] eqn:Hc; [| reflexivity].
  rewrite lookup_delete_ne by done.
  destruct (kw !! "enable_this_node") as [e |] eqn:He; [| reflexivity].
  rewrite lookup_insert_ne by done. rewrite lookup_insert_eq.
  destruct (f _ _ _) as [self' [r | x]]; reflexivity.
Qed.

Lemma wrapper_other_flag (kw : kwargs) (flag : value) :
  delete "enable_this_node" (delete "context" (<["enable_this_node" := flag]> kw))
  = delete "enable_this_node" (delete "context" kw).
Proof.
  rewrite delete_insert_ne by done. apply delete_insert_eq.
Qed.

(** C1, as the specification states it, fails: the wrapper stores the
    flag on the instance before it calls the original function, so a node
    that reads [self.enable_this_node] returns a result that varies with
    the flag. *)
Lemma wrapper_result_depends_on_flag :
  let wrapped := ContextExecutionFuncWrapper__get__ {| func := reads_enable_flag |} in
  let C := RemixContext (str "127.0.0.1") (VInt 8011) in
  (wrapped [] {[ "context" := C; "enable_this_node" := VBool true ]} ∅).2
    = Ok (tuple [C; VBool true])
  /\ (wrapped [] {[ "context" := C; "enable_this_node" := VBool false ]} ∅).2
    = Ok (tuple [C; VBool false])
  /\ ~ (forall (f : method) (args : list value) (rest : kwargs) (self : instance)
          (C flag1 flag2 : value),
          (ContextExecutionFuncWrapper__get__ {| func := f |} args
             (<["enable_this_node" := flag1]> (<["context" := C]> rest)) self).2
          = (ContextExecutionFuncWrapper__get__ {| func := f |} args
             (<["enable_this_node" := flag2]> (<["context" := C]> rest)) self).2).
Proof.
  intros wrapped C.
  split; [vm_compute; reflexivity |]. split; [vm_compute; reflexivity |].
  intros H.
  specialize (H reads_enable_flag [] ∅ ∅ C (VBool true) (VBool false)).
  vm_compute in H. discriminate H.
Qed.

(** C1, amended.  When the keyword arguments carry the context [C] and a
    flag, the wrapped method returns [C] followed by the items of the tuple
    that the original function returns on the remaining arguments and on
    the instance on which [C] and the flag are stored; whatever the flag,
    any result the wrapped method returns starts with [C]; and two flags on
    which the original function's outcome agrees give the same result. *)
Theorem wrapper_prepends_context (f : method) (args : list value) (kw : kwargs)
    (self : instance) (C flag : value) :
  kw !! "context" = Some C ->
  kw !! "enable_this_node" = Some flag ->
  let wrapped := ContextExecutionFuncWrapper__get__ {| func := f |} in
  let rest := delete "enable_this_node" (delete "context" kw) in
  let stored fl := <["enable_this_node" := fl]> (<["context" := C]> self) in
  (forall self' c t,
      f args rest (stored flag) = (self', Ok (VTuple c t)) ->
      wrapped args kw self = (self', Ok (tuple (C :: t))))
  /\ (forall self' v,
      wrapped args kw self = (self', Ok v) ->
      exists c t, v = tuple (C :: t)
                  /\ f args rest (stored flag) = (self', Ok (VTuple c t)))
  /\ (forall flag2,
      (f args rest (stored flag2)).2 = (f args rest (stored flag)).2 ->
      (wrapped args (<["enable_this_node" := flag2]> kw) self).2
      = (wrapped args kw self).2).
Proof.
  intros Hc He wrapped rest stored. unfold wrapped. repeat split.
  - intros self' c t Hf. rewrite wrapper_unfold, Hc, He.
    fold rest. fold (stored flag). rewrite Hf. reflexivity.
  - intros self' v. rewrite wrapper_unfold, Hc, He.
    fold rest. fold (stored flag).
    destruct (f args rest (stored flag)) as [s [r | x]]; [| discriminate].
    destruct r; simpl; try discriminate.
    intros [= <- <-]. eauto.
  - intros flag2 Hsame. rewrite !wrapper_unfold.
    rewrite lookup_insert_ne by done. rewrite lookup_insert_eq, Hc, He.
    rewrite wrapper_other_flag. fold rest. fold (stored flag2). fold (stored flag).
    destruct (f args rest (stored flag2)) as [s2 r2].
    destruct (f args rest (stored flag)) as [s1 r1].
    simpl in Hsame. subst r2. destruct r1; reflexivity.
Qed.

Lemma wrapper_prepends_context_witness :
  (ContextExecutionFuncWrapper__get__ {| func := reads_enable_flag |} []
     {[ "context" := RemixContext (str "10.0.0.5") (VInt 8011);
        "enable_this_node" := VBool false ]} ∅)
  = ({[ "context" := RemixContext (str "10.0.0.5") (VInt 8011);
        "enable_this_node" := VBool false ]},
     Ok (tuple [RemixContext (str "10.0.0.5") (VInt 8011); VBool false])).
Proof.
  refine (proj1 (wrapper_prepends_context reads_enable_flag []
            {[ "context" := RemixContext (str "10.0.0.5") (VInt 8011);
               "enable_this_node" := VBool false ]} ∅
            (RemixContext (str "10.0.0.5") (VInt 8011)) (VBool false) _ _)
          _ PlainTuple [VBool false] _).
  - reflexivity.
  - reflexivity.
  - vm_compute. reflexivity.
Defined.

(** C9, as the specification states it, fails: with both keys present the
    wrapped call still raises when the original function returns something
    other than a tuple (the wrapper's own [+] raises [TypeError]) and when
    the original function raises. *)
Lemma wrapper_fails_with_both_keys :
  let kw : kwargs :=
    {[ "context" := RemixContext (str "127.0.0.1") (VInt 8011);
       "enable_this_node" := VBool true ]} in
  is_Some (kw !! "context")
  /\ is_Some (kw !! "enable_this_node")
  /\ (ContextExecutionFuncWrapper__get__ {| func := returns_list |} [] kw ∅).2
     = Err TypeError
  /\ (ContextExecutionFuncWrapper__get__ {| func := raises_error |} [] kw ∅).2
     = Err (Raised "unreachable")
  /\ ~ (forall (f : method) (args : list value) (kw : kwargs) (self : instance),
          is_Err (ContextExecutionFuncWrapper__get__ {| func := f |} args kw self).2
          <-> kw !! "context" = None \/ kw !! "enable_this_node" = None).
Proof.
  intros kw.
  split; [eexists; reflexivity |]. split; [eexists; reflexivity |].
  split; [vm_compute; reflexivity |]. split; [vm_compute; reflexivity |].
  intros H. specialize (H returns_list [] kw ∅).
  destruct H as [H _].
  destruct H as [H | H]; [vm_compute; exact I | discriminate H | discriminate H].
Qed.

(** C9, amended.  A wrapped call without ["context"] raises
    [KeyError] with nothing stored and the original function not run; one
    with ["context"] but without ["enable_this_node"] raises [KeyError]
    with the context stored.  With both keys present the call raises
    exactly when the original function raises, its exception passing
    through unchanged, or returns something that is not a tuple.  So for a
    node whose function always returns a tuple, the call raises if and only
    if one of the two keys is missing. *)
Theorem wrapper_failure_modes (f : method) (args : list value) (kw : kwargs)
    (self : instance) :
  let wrapped := ContextExecutionFuncWrapper__get__ {| func := f |} in
  let rest := delete "enable_this_node" (delete "context" kw) in
  (kw !! "context" = None ->
     wrapped args kw self = (self, Err (KeyError "context")))
  /\ (forall c, kw !! "context" = Some c -> kw !! "enable_this_node" = None ->
     wrapped args kw self
     = (<["context" := c]> self, Err (KeyError "enable_this_node")))
  /\ (forall c e self' out,
     kw !! "context" = Some c -> kw !! "enable_this_node" = Some e ->
     f args rest (<["enable_this_node" := e]> (<["context" := c]> self)) = (self', out) ->
     match out with
     | Err x => wrapped args kw self = (self', Err x)
     | Ok r => is_Err (wrapped args kw self).2 <-> is_tuple r = false
     end)
  /\ ((forall a k s, exists s' c t, f a k s = (s', Ok (VTuple c t))) ->
     (is_Err (wrapped args kw self).2
      <-> kw !! "context" = None \/ kw !! "enable_this_node" = None)).
Proof.
  intros wrapped rest. unfold wrapped. repeat apply conj.
  - intros Hc. rewrite wrapper_unfold, Hc. reflexivity.
  - intros c Hc He. rewrite wrapper_unfold, Hc, He. reflexivity.
  - intros c e self' out Hc He Hf.
    rewrite wrapper_unfold, Hc, He. fold rest. rewrite Hf.
    destruct out as [r | x]; [| reflexivity].
    destruct r; simpl; split; (done || discriminate).
  - intros Htuple. rewrite wrapper_unfold.
    destruct (kw !! "context") as [c |] eqn:Hc; [| simpl; tauto].
    destruct (kw !! "enable_this_node") as [e |] eqn:He; [| simpl; tauto].
    fold rest.
    destruct (Htuple args rest (<["enable_this_node" := e]> (<["context" := c]> self)))
      as (s' & cl & t & ->).
    simpl. split; [tauto | intros [H | H]; discriminate H].
Qed.

Lemma wrapper_failure_modes_witness :
  (ContextExecutionFuncWrapper__get__ {| func := returns_nothing |}
     [] {[ "enable_this_node" := VBool true ]} ∅)
  = (∅, Err (KeyError "context"))
  /\ (is_Err (ContextExecutionFuncWrapper__get__ {| func := returns_nothing |}
                [] {[ "enable_this_node" := VBool true ]} ∅).2
      <-> ({[ "enable_this_node" := VBool true ]} : kwargs) !! "context" = None
          \/ ({[ "enable_this_node" := VBool true ]} : kwargs) !! "enable_this_node" = None)
  /\ (ContextExecutionFuncWrapper__get__ {| func := raises_error |} []
        {[ "context" := VNone; "enable_this_node" := VBool true ]} ∅)
     = ({[ "context" := VNone; "enable_this_node" := VBool true ]},
        Err (Raised "unreachable")).
Proof.
  split; [| split].
  - refine (proj1 (wrapper_failure_modes returns_nothing []
                     {[ "enable_this_node" := VBool true ]} ∅) _).
    reflexivity.
  - refine (proj2 (proj2 (proj2 (wrapper_failure_modes returns_nothing []
                     {[ "enable_this_node" := VBool true ]} ∅))) _).
    intros a k s. exists s, PlainTuple, []. reflexivity.
  - refine (proj1 (proj2 (proj2 (wrapper_failure_modes raises_error []
                     {[ "context" := VNone; "enable_this_node" := VBool true ]} ∅)))
              VNone (VBool true) _ (Err (Raised "unreachable")) _ _ _).
    + reflexivity.
    + reflexivity.
    + vm_compute. reflexivity.
Defined.

(** ** The class decorators *)

Lemma utils_merge_dict_merges_entries : merges_entries utils_merge_dict.
Proof.
  intros d1 d2 section name. unfold entry, utils_merge_dict.
  rewrite lookup_union_with.
  destruct (d1 !! section) as [s1 |], (d2 !! section) as [s2 |]; simpl.
  - rewrite lookup_union.
    destruct (s1 !! name), (s2 !! name); simpl; auto.
  - destruct (s1 !! name); auto.
  - destruct (s2 !! name); auto.
  - auto.
Qed.

Section Decorators.

Variable CONTEXT_TYPE : value.
Variable merge_dict : schema -> schema -> schema.
Hypothesis merge_dict_entries : merges_entries merge_dict.

Lemma merge_dict_is_Some (d1 d2 : schema) (section name : string) :
  is_Some (entry (merge_dict d1 d2) section name)
  <-> is_Some (entry d1 section name) \/ is_Some (entry d2 section name).
Proof.
  pose proof (merge_dict_entries d1 d2 section name) as H.
  destruct (entry (merge_dict d1 d2) section name) as [spec |].
  - split; [| eauto]. intros _. destruct H as [-> | ->]; eauto.
  - destruct H as [-> ->]. split; [intros [? ?] | intros [[? ?] | [? ?]]]; discriminate.
Qed.

Lemma merge_dict_left (d1 d2 : schema) (section name : string) (spec : input_spec) :
  entry d1 section name = Some spec -> entry d2 section name = None ->
  entry (merge_dict d1 d2) section name = Some spec.
Proof.
  intros H1 H2. pose proof (merge_dict_entries d1 d2 section name) as H.
  destruct (entry (merge_dict d1 d2) section name) as [spec' |].
  - destruct H as [H | H]; congruence.
  - destruct H; congruence.
Qed.

Lemma merge_dict_right (d1 d2 : schema) (section name : string) :
  entry d1 section name = None ->
  entry (merge_dict d1 d2) section name = entry d2 section name.
Proof.
  intros H1. pose proof (merge_dict_entries d1 d2 section name) as H.
  destruct (entry (merge_dict d1 d2) section name) as [spec' |].
  - destruct H as [H | H]; congruence.
  - destruct H; congruence.
Qed.

Lemma entry_singleton (section name section' name' : string) (spec : input_spec) :
  entry {[ section := {[ name := spec ]} ]} section' name'
  = if decide (section = section' /\ name = name') then Some spec else None.
Proof.
  unfold entry. destruct (decide (section = section')) as [<- | Hs].
  - rewrite lookup_singleton_eq. simpl.
    destruct (decide (name = name')) as [<- | Hn].
    + rewrite lookup_singleton_eq. rewrite decide_True by done. reflexivity.
    + rewrite lookup_singleton_ne by done. rewrite decide_False by tauto. reflexivity.
  - rewrite lookup_singleton_ne by done. rewrite decide_False by tauto. reflexivity.
Qed.

Lemma is_Some_if_decide (P : Prop) `{Decision P} (spec : input_spec) :
  is_Some (if decide P then Some spec else None) <-> P.
Proof.
  destruct (decide P) as [HP | HP].
  - split; eauto.
  - split; [intros [? ?]; discriminate | tauto].
Qed.

(** C2. Decorating a node class that has the method its [FUNCTION] names
    succeeds and gives a class whose input schema has a required
    ["context"] and a required ["enable_this_node"] entry next to all the
    entries the class declared, and nothing else; an entry the class did
    not declare itself is the one of [get_context_inputs] or
    [get_enabled_inputs].  [RETURN_TYPES] is the context type followed by
    the original types and [RETURN_NAMES] is ["context"] followed by the
    original names (an absent list counting as empty). *)
Theorem decorator_adds_context (cls : node_class) (f : method) :
  methods cls !! FUNCTION cls = Some f ->
  exists cls',
    add_context_input_enabled_and_output CONTEXT_TYPE merge_dict cls = Ok cls'
    /\ is_Some (entry (INPUT_TYPES cls' tt) "required" "context")
    /\ is_Some (entry (INPUT_TYPES cls' tt) "required" "enable_this_node")
    /\ (forall section name,
          is_Some (entry (INPUT_TYPES cls' tt) section name)
          <-> is_Some (entry (INPUT_TYPES cls tt) section name)
              \/ section = "required"
                 /\ (name = "context" \/ name = "enable_this_node"))
    /\ (entry (INPUT_TYPES cls tt) "required" "context" = None ->
          entry (INPUT_TYPES cls' tt) "required" "context"
          = Some (CONTEXT_TYPE, {[ "forceInput" := VBool true ]}))
    /\ (entry (INPUT_TYPES cls tt) "required" "enable_this_node" = None ->
          entry (INPUT_TYPES cls' tt) "required" "enable_this_node"
          = Some (str "BOOLEAN", {[ "default" := VBool true ]}))
    /\ RETURN_TYPES cls' = Some (CONTEXT_TYPE :: default [] (RETURN_TYPES cls))
    /\ RETURN_NAMES cls' = Some ("context" :: default [] (RETURN_NAMES cls)).
Proof.
  intros Hf. unfold add_context_input_enabled_and_output. simpl. rewrite Hf.
  eexists. split; [reflexivity |]. simpl. unfold wrap_input_types_with. simpl.
  unfold get_enabled_inputs, get_context_inputs.
  repeat apply conj.
  - rewrite !merge_dict_is_Some, !entry_singleton.
    right. left. rewrite decide_True by done. eauto.
  - rewrite !merge_dict_is_Some, !entry_singleton.
    left. rewrite decide_True by done. eauto.
  - intros section name. rewrite !merge_dict_is_Some, !entry_singleton.
    rewrite !is_Some_if_decide. intuition (subst; auto).
  - intros Hnone. rewrite merge_dict_right by (rewrite entry_singleton; done).
    apply merge_dict_left; [| exact Hnone].
    rewrite entry_singleton. rewrite decide_True by done. reflexivity.
  - intros Hnone. apply merge_dict_left.
    + rewrite entry_singleton. rewrite decide_True by done. reflexivity.
    + rewrite merge_dict_right by (rewrite entry_singleton; done). exact Hnone.
  - reflexivity.
  - reflexivity.
Qed.

End Decorators.

Lemma decorator_adds_context_witness :
  exists cls',
    add_context_input_enabled_and_output (str "CONTEXT") utils_merge_dict
      (InvertBool "RTX Remix") = Ok cls'
    /\ is_Some (entry (INPUT_TYPES cls' tt) "required" "context")
    /\ is_Some (entry (INPUT_TYPES cls' tt) "required" "enable_this_node")
    /\ RETURN_TYPES cls' = Some [str "CONTEXT"; str "BOOLEAN"]
    /\ RETURN_NAMES cls' = Some ["context"].
Proof.
  destruct (decorator_adds_context (str "CONTEXT") utils_merge_dict
              utils_merge_dict_merges_entries (InvertBool "RTX Remix")
              (def [("value", None)] (fun vs =>
                 match vs with
                 | [v] => mret (InvertBool_execute v)
                 | _ => raise TypeError
                 end)))
    as (cls' & Hok & Hctx & Hflag & _ & _ & _ & Htypes & Hnames).
  - reflexivity.
  - exists cls'. repeat split; assumption.
Defined.

(** The decorated class runs the original function through the wrapper. *)
Lemma decorator_wraps_function (CONTEXT_TYPE : value)
    (merge_dict : schema -> schema -> schema) (cls cls' : node_class) :
  add_context_input_enabled_and_output CONTEXT_TYPE merge_dict cls = Ok cls' ->
  exists f,
    methods cls !! FUNCTION cls = Some f
    /\ FUNCTION cls' = FUNCTION cls
    /\ methods cls' !! FUNCTION cls'
       = Some (ContextExecutionFuncWrapper__get__ {| func := f |}).
Proof.
  unfold add_context_input_enabled_and_output. simpl.
  destruct (methods cls !! FUNCTION cls) as [f |] eqn:Hf; [| discriminate].
  intros [= <-]. exists f. simpl. rewrite lookup_insert_eq. auto.
Qed.

(** [StartContext] is decorated with [add_context_outputs] alone: its one
    output is the context. *)
Lemma StartContext_outputs (CONTEXT_TYPE : value) (PREFIX_MENU : string) :
  RETURN_TYPES (StartContext CONTEXT_TYPE PREFIX_MENU) = Some [CONTEXT_TYPE]
  /\ RETURN_NAMES (StartContext CONTEXT_TYPE PREFIX_MENU) = Some ["context"]
  /\ OUTPUT_IS_LIST (StartContext CONTEXT_TYPE PREFIX_MENU) = None.
Proof. repeat split. Qed.

(** ** Decorated nodes run by the host *)

(** A decorated class run by the host runs the wrapper around the original
    function. *)
Lemma run_decorated (CONTEXT_TYPE : value) (merge_dict : schema -> schema -> schema)
    (cls cls' : node_class) (kw : kwargs) (self : instance) :
  add_context_input_enabled_and_output CONTEXT_TYPE merge_dict cls = Ok cls' ->
  exists f,
    methods cls !! FUNCTION cls = Some f
    /\ run cls' kw self = ContextExecutionFuncWrapper__get__ {| func := f |} [] kw self.
Proof.
  intros Hdec.
  destruct (decorator_wraps_function _ _ _ _ Hdec) as (f & Hf & _ & Hw).
  exists f. split; [exact Hf |]. unfold run. rewrite Hw. reflexivity.
Qed.

Example run_StringConcatenate_file_name :
  run (StringConcatenate "RTX Remix")
      {[ "string1" := str "albedo"; "string2" := str "0001" ]} ∅
  = (∅, Ok (tuple [str "albedo_0001"])).
Proof. vm_compute. reflexivity. Qed.

Example run_Switch_batch :
  run (Switch "RTX Remix")
      {[ "if_true" := VList [str "a"]; "if_false" := VList [VInt 7];
         "switcher" := VList [VBool false] ]} ∅
  = (∅, Ok (tuple [VList [VInt 7]])).
Proof. vm_compute. reflexivity. Qed.

Example run_decorated_InvertBool :
  result_bind
    (add_context_input_enabled_and_output (str "CONTEXT") utils_merge_dict
       (InvertBool "RTX Remix"))
    (fun cls' =>
       (run cls'
          {[ "context" := RemixContext (str "10.0.0.5") (VInt 8011);
             "enable_this_node" := VBool false;
             "value" := VBool true ]} ∅).2)
  = Ok (tuple [RemixContext (str "10.0.0.5") (VInt 8011); VBool false]).
Proof. vm_compute. reflexivity. Qed.

(** * Further properties of the module *)

(** ** Calling a [def] *)

Lemma bind_params_length (params : list (string * option value)) :
  forall (args : list value) (kw : kwargs) (vs : list value),
    bind_params params args kw = Ok vs -> length vs = length params.
Proof.
  induction params as [| [p dflt] params IH]; intros args kw vs; simpl.
  - destruct args, (map_to_list kw); intros [= <-] || discriminate. reflexivity.
  - destruct args as [| a args].
    + destruct (kw !! p) as [v |], dflt as [d |]; try discriminate;
        destruct (bind_params params [] _) as [vs' |] eqn:Hb; try discriminate;
        intros [= <-]; simpl; f_equal; eapply IH; exact Hb.
    + destruct (kw !! p); [discriminate |].
      destruct (bind_params params args kw) as [vs' |] eqn:Hb; [| discriminate].
      intros [= <-]. simpl. f_equal. eapply IH; exact Hb.
Qed.

Lemma bind_params_required (params : list (string * option value)) :
  forall (kw : kwargs) (vs : list value),
    bind_params params [] kw = Ok vs ->
    forall p, (p, None) ∈ params -> is_Some (kw !! p).
Proof.
  induction params as [| [q dflt] params IH]; intros kw vs Hb p Hp.
  - apply elem_of_nil in Hp. destruct Hp.
  - simpl in Hb. apply elem_of_cons in Hp.
    destruct (kw !! q) as [v |] eqn:Hq.
    + destruct (bind_params params [] (delete q kw)) as [vs' |] eqn:Hb'; [| discriminate].
      destruct Hp as [[= -> _] | Hp]; [eauto |].
      specialize (IH _ _ Hb' p Hp). apply lookup_delete_is_Some in IH. tauto.
    + destruct dflt as [d |]; [| discriminate].
      destruct (bind_params params [] kw) as [vs' |] eqn:Hb'; [| discriminate].
      destruct Hp as [[=] | Hp]. eauto.
Qed.

Lemma bind_params_known (params : list (string * option value)) :
  forall (kw : kwargs) (vs : list value),
    bind_params params [] kw = Ok vs ->
    forall k, is_Some (kw !! k) -> k ∈ params.*1.
Proof.
  induction params as [| [q dflt] params IH]; intros kw vs Hb k Hk.
  - simpl in Hb. destruct (map_to_list kw) eqn:Hl; [| discriminate].
    apply map_to_list_empty_iff in Hl. subst kw.
    rewrite lookup_empty in Hk. destruct Hk; discriminate.
  - simpl in Hb. simpl. apply elem_of_cons.
    destruct (decide (k = q)) as [-> | Hne]; [auto | right].
    destruct (kw !! q) as [v |] eqn:Hq.
    + destruct (bind_params params [] (delete q kw)) as [vs' |] eqn:Hb'; [| discriminate].
      apply (IH _ _ Hb'). apply lookup_delete_is_Some. auto.
    + destruct dflt as [d |]; [| discriminate].
      destruct (bind_params params [] kw) as [vs' |] eqn:Hb'; [| discriminate].
      apply (IH _ _ Hb'). exact Hk.
Qed.

(** A call of a [def] either fails to bind its arguments, with [TypeError]
    and the instance untouched, or runs the body on one value per
    parameter. *)
Lemma def_call (params : list (string * option value)) (body : list value -> M value)
    (kw : kwargs) (self : instance) :
  (def params body [] kw self = (self, Err TypeError)
   /\ forall vs, bind_params params [] kw <> Ok vs)
  \/ exists vs,
       bind_params params [] kw = Ok vs
       /\ length vs = length params
       /\ def params body [] kw self = body vs self.
Proof.
  unfold def, lift, mbind, M_bind.
  destruct (bind_params params [] kw) as [vs | e] eqn:Hb.
  - right. exists vs. split; [reflexivity |]. split; [| reflexivity].
    eapply bind_params_length. exact Hb.
  - left. split; [| intros vs; discriminate].
    assert (e = TypeError) as ->; [| reflexivity].
    clear self body. revert kw e Hb.
    induction params as [| [q dflt] params IH]; intros kw e; simpl.
    + destruct (map_to_list kw); [discriminate | intros [= <-]; reflexivity].
    + destruct (kw !! q), dflt; try (intros [= <-]; reflexivity);
        destruct (bind_params params [] _) eqn:Hb'; try discriminate;
        intros [= <-]; eapply IH; exact Hb'.
Qed.

(** ** Every node of the module *)

Lemma StringConcatenate_execute_Ok (a b : value) (s : option value) (v : value) :
  StringConcatenate_execute a b s = Ok v -> exists x, v = tuple [x].
Proof.
  unfold StringConcatenate_execute.
  destruct (py_add a (default (str "_") s)) as [s1 |]; [| discriminate]. simpl.
  destruct (py_add s1 b) as [s2 |]; [| discriminate]. simpl.
  intros [= <-]. eauto.
Qed.

Lemma Switch_execute_Ok (x y switcher v : value) :
  Switch_execute x y switcher = Ok v -> v = tuple [x] \/ v = tuple [y].
Proof.
  unfold Switch_execute.
  destruct (getitem0 switcher) as [s0 |]; [| discriminate]. simpl.
  intros [= <-]. destruct (truthy s0); auto.
Qed.

Ltac by_node_class Hin :=
  unfold node_classes in Hin;
  repeat (apply elem_of_cons in Hin; destruct Hin as [-> | Hin]);
  [.. | apply elem_of_nil in Hin; destruct Hin].

Ltac enter_def Hrun vs Hb :=
  unfold run in Hrun;
  cbv [RestAPIDetails StartContext EndContext StringConstant StringConcatenate
       Switch InvertBool StrToList add_context_outputs methods FUNCTION] in Hrun;
  rewrite lookup_singleton_eq in Hrun;
  match type of Hrun with
  | def ?params ?body [] ?kw ?self = _ =>
      let He := fresh "He" in
      let Hlen := fresh "Hlen" in
      destruct (def_call params body kw self) as [[He _] | (vs & Hb & Hlen & He)];
      rewrite He in Hrun; clear He;
      [ discriminate Hrun
      | simpl in Hlen;
        repeat (destruct vs as [| ? vs]; [discriminate Hlen |]);
        destruct vs; [| discriminate Hlen]; clear Hlen ]
  end.

(** X1. Every node class of the module returns what it declares: a call
    by the host that returns at all returns a plain tuple with one item per
    entry of [RETURN_TYPES] (and per entry of [OUTPUT_IS_LIST] where the
    class has one), and leaves the attributes of the instance as they
    were. *)
Theorem nodes_return_declared_outputs (CONTEXT_TYPE : value) (PREFIX_MENU : string)
    (cls : node_class) (kw : kwargs) (self self' : instance) (v : value) :
  cls ∈ node_classes CONTEXT_TYPE PREFIX_MENU ->
  run cls kw self = (self', Ok v) ->
  self' = self
  /\ exists items,
       v = tuple items
       /\ length items = length (default [] (RETURN_TYPES cls))
       /\ forall l, OUTPUT_IS_LIST cls = Some l -> length l = length items.
Proof.
  intros Hin Hrun. by_node_class Hin; enter_def Hrun vs Hb; simpl in Hrun.
  - injection Hrun as <- <-. split; [reflexivity |].
    eexists. split; [reflexivity |]. split; [reflexivity | discriminate].
  - injection Hrun as <- <-. split; [reflexivity |].
    eexists. split; [reflexivity |]. split; [reflexivity | discriminate].
  - injection Hrun as <- <-. split; [reflexivity |].
    eexists. split; [reflexivity |]. split; [reflexivity | discriminate].
  - injection Hrun as <- <-. split; [reflexivity |].
    eexists. split; [reflexivity |]. split; [reflexivity | discriminate].
  - unfold lift in Hrun. injection Hrun as <- Hv. split; [reflexivity |].
    apply StringConcatenate_execute_Ok in Hv as [x ->].
    eexists. split; [reflexivity |]. split; [reflexivity | discriminate].
  - unfold lift in Hrun. injection Hrun as <- Hv. split; [reflexivity |].
    apply Switch_execute_Ok in Hv.
    destruct Hv as [-> | ->]; eexists; (split; [reflexivity |]);
      (split; [reflexivity | intros l [= <-]; reflexivity]).
  - injection Hrun as <- <-. split; [reflexivity |].
    eexists. split; [reflexivity |]. split; [reflexivity | discriminate].
  - injection Hrun as <- <-. split; [reflexivity |].
    eexists. split; [reflexivity |].
    split; [reflexivity | intros l [= <-]; reflexivity].
Qed.

Lemma nodes_return_declared_outputs_witness :
  exists items,
    tuple [RemixContext (str "10.0.0.5") (VInt 8011)] = tuple items
    /\ length items = 1%nat.
Proof.
  destruct (nodes_return_declared_outputs (str "CONTEXT") "RTX Remix"
              (StartContext (str "CONTEXT") "RTX Remix")
              {[ "address" := str "10.0.0.5"; "port" := VInt 8011 ]} ∅ ∅
              (tuple [RemixContext (str "10.0.0.5") (VInt 8011)]))
    as (_ & items & Hv & Hlen & _).
  - unfold node_classes. apply list_elem_of_further, list_elem_of_here.
  - vm_compute. reflexivity.
  - exists items. split; [exact Hv | exact Hlen].
Defined.

Ltac declared_in_schema :=
  first [ exists "required"; eexists; reflexivity
        | exists "optional"; eexists; reflexivity ].

Ltac required_names Hsome :=
  repeat first
    [ apply lookup_insert_is_Some in Hsome; destruct Hsome as [<- | [_ Hsome]]
    | destruct Hsome as [? Hsome]; apply lookup_singleton_Some in Hsome;
      destruct Hsome as [<- _] ].

(** X2. The execution method of every node class takes the inputs its
    schema declares: a call by the host that returns was given only inputs
    that [INPUT_TYPES] names, and was given every input that [INPUT_TYPES]
    requires. *)
Theorem nodes_take_declared_inputs (CONTEXT_TYPE : value) (PREFIX_MENU : string)
    (cls : node_class) (kw : kwargs) (self self' : instance) (v : value) :
  cls ∈ node_classes CONTEXT_TYPE PREFIX_MENU ->
  run cls kw self = (self', Ok v) ->
  (forall name, is_Some (kw !! name) ->
     exists section, is_Some (entry (INPUT_TYPES cls tt) section name))
  /\ (forall name, is_Some (entry (INPUT_TYPES cls tt) "required" name) ->
     is_Some (kw !! name)).
Proof.
  intros Hin Hrun.
  by_node_class Hin; enter_def Hrun vs Hb; clear Hrun;
    (split; intros name Hsome;
     [ apply (bind_params_known _ _ _ Hb) in Hsome; simpl in Hsome;
       repeat (apply elem_of_cons in Hsome; destruct Hsome as [-> | Hsome]);
       [ declared_in_schema .. | apply elem_of_nil in Hsome; destruct Hsome ]
     | apply (bind_params_required _ _ _ Hb);
       unfold entry in Hsome;
       cbv [INPUT_TYPES RestAPIDetails StartContext EndContext StringConstant
            StringConcatenate Switch InvertBool StrToList add_context_outputs]
         in Hsome;
       rewrite ?lookup_insert_eq, ?lookup_singleton_eq in Hsome;
       simpl in Hsome; required_names Hsome;
       repeat first [ apply list_elem_of_here | apply list_elem_of_further ] ]).
Qed.

Lemma nodes_take_declared_inputs_witness :
  is_Some (({[ "string1" := str "a"; "string2" := str "b" ]} : kwargs) !! "string2").
Proof.
  refine (proj2 (nodes_take_declared_inputs (str "CONTEXT") "RTX Remix"
                   (StringConcatenate "RTX Remix")
                   {[ "string1" := str "a"; "string2" := str "b" ]} ∅ ∅
                   (tuple [str "a_b"]) _ _) "string2" _).
  - unfold node_classes. do 4 apply list_elem_of_further. apply list_elem_of_here.
  - vm_compute. reflexivity.
  - eexists. reflexivity.
Defined.

(** ** More on the leaf nodes *)



(** X4. [InvertBool.execute] accepts any value and always outputs a
    boolean, the negation of the value's truth value.  Inverting twice
    gives the truth value [bool(v)], which is the input again exactly when
    the input is a boolean; inverting three times is inverting once. *)
Theorem InvertBool_execute_any (v : value) :
  let invert_again r := output_slot 0 r ≫= fun w => Some (InvertBool_execute w) in
  InvertBool_execute v = tuple [VBool (negb (truthy v))]
  /\ invert_again (InvertBool_execute v) = Some (tuple [VBool (truthy v)])
  /\ (invert_again (InvertBool_execute v) = Some (tuple [v]) <-> exists b, v = VBool b)
  /\ (invert_again (InvertBool_execute v) ≫= invert_again)
     = Some (InvertBool_execute v).
Proof.
  intros invert_again. unfold invert_again, InvertBool_execute, py_not. simpl.
  rewrite Bool.negb_involutive.
  split; [reflexivity |]. split; [reflexivity |]. split; [| reflexivity].
  split.
  - intros [= <-]. eauto.
  - intros [b ->]. reflexivity.
Qed.

Lemma append_assoc (a b c : string) : (a +:+ b) +:+ c = a +:+ (b +:+ c).
Proof.
  induction a as [| ch a IH]; [reflexivity |].
  change (String ch ((a +:+ b) +:+ c) = String ch (a +:+ (b +:+ c))).
  rewrite IH. reflexivity.
Qed.

Lemma append_length (a b : string) :
  String.length (a +:+ b) = (String.length a + String.length b)%nat.
Proof.
  induction a as [| ch a IH]; [reflexivity |].
  change (S (String.length (a +:+ b)) = S (String.length a + String.length b)).
  rewrite IH. reflexivity.
Qed.

Lemma append_empty_r (a : string) : a +:+ "" = a.
Proof.
  induction a as [| ch a IH]; [reflexivity |].
  change (String ch (a +:+ "") = String ch a).
  rewrite IH. reflexivity.
Qed.

(** X5. [StringConcatenate.execute] checks no types: with a string as
    [string1] it returns the joined string when [separator] and [string2]
    are strings too and raises [TypeError] otherwise (so does the default
    separator with a [string2] that is no string); three lists are
    concatenated just as three strings are. *)
Theorem StringConcatenate_execute_types (c : str_class) (a : string)
    (separator string2 : value) (xs sep ys : list value) :
  match separator, string2 with
  | VStr _ s, VStr _ b =>
      StringConcatenate_execute (VStr c a) string2 (Some separator)
      = Ok (tuple [str ((a +:+ s) +:+ b)])
  | _, _ =>
      StringConcatenate_execute (VStr c a) string2 (Some separator) = Err TypeError
  end
  /\ match string2 with
     | VStr _ b =>
         StringConcatenate_execute (VStr c a) string2 None
         = Ok (tuple [str ((a +:+ "_") +:+ b)])
     | _ => StringConcatenate_execute (VStr c a) string2 None = Err TypeError
     end
  /\ StringConcatenate_execute (VList xs) (VList ys) (Some (VList sep))
     = Ok (tuple [VList ((xs ++ sep) ++ ys)%list])
  /\ StringConcatenate_execute (VList xs) (VList ys) None = Err TypeError.
Proof.
  split; [| split; [| split; reflexivity]].
  - destruct separator, string2; reflexivity.
  - destruct string2; reflexivity.
Qed.

(** X6. Joining strings with [StringConcatenate]: the result is as long as
    the three strings together; an empty separator gives [a + b]; and
    chaining two nodes with the same separator gives [a + s + b + s + c]
    whichever pair is joined first. *)
Theorem StringConcatenate_execute_chain (a b c s : string) :
  let join x y := StringConcatenate_execute x y (Some (str s)) in
  let then_join (r : result value) (k : value -> result value) :=
    result_bind r (fun out => from_option k (Err IndexError) (output_slot 0 out)) in
  (exists r,
     join (str a) (str b) = Ok (tuple [str r])
     /\ String.length r = (String.length a + String.length s + String.length b)%nat)
  /\ StringConcatenate_execute (str a) (str b) (Some (str "")) = Ok (tuple [str (a +:+ b)])
  /\ then_join (join (str a) (str b)) (fun ab => join ab (str c))
     = Ok (tuple [str (a +:+ s +:+ b +:+ s +:+ c)])
  /\ then_join (join (str b) (str c)) (fun bc => join (str a) bc)
     = Ok (tuple [str (a +:+ s +:+ b +:+ s +:+ c)]).
Proof.
  intros join then_join. unfold then_join, join, StringConcatenate_execute. simpl.
  split; [| split; [| split]].
  - eexists. split; [reflexivity |]. rewrite !append_length. reflexivity.
  - rewrite append_empty_r. reflexivity.
  - unfold str, tuple. rewrite !append_assoc. reflexivity.
  - unfold str, tuple. rewrite !append_assoc. reflexivity.
Qed.

(** ** Contexts *)

Lemma eq_method_refl : forall v : value, eq_method v v = Some true.
Proof.
  fix IH 1. intros [| b | z | c s | c items | items]; simpl.
  - reflexivity.
  - destruct b; reflexivity.
  - rewrite Z.eqb_refl. reflexivity.
  - rewrite String.eqb_refl. reflexivity.
  - f_equal. revert items. fix IHitems 1. intros [| x items]; [reflexivity |].
    rewrite (IH x). apply IHitems.
  - f_equal. revert items. fix IHitems 1. intros [| x items]; [reflexivity |].
    rewrite (IH x). apply IHitems.
Qed.

Lemma eq_method_None_sym (x y : value) :
  eq_method x y = None -> eq_method y x = None.
Proof. destruct x, y; simpl; intros H; try discriminate H; reflexivity. Qed.

Lemma py_eq_eq_method (x y : value) :
  py_eq x y = match eq_method x y with Some true => true | _ => false end.
Proof.
  unfold py_eq. destruct (eq_method x y) as [[|] |] eqn:Hxy; try reflexivity.
  rewrite (eq_method_None_sym _ _ Hxy). reflexivity.
Qed.

Lemma run_RestAPIDetails (PREFIX_MENU : string) (address port : value)
    (self : instance) :
  run (RestAPIDetails PREFIX_MENU) {[ "address" := address; "port" := port ]} self
  = (self, Ok (tuple [address; port])).
Proof. call. reflexivity. Qed.

(** X7. A [RemixContext] built from any two values gives them back as its
    [address] and [port]; it compares equal to itself and to the plain pair
    of the two values, and two contexts compare equal exactly when their
    addresses compare equal and their ports compare equal. *)
Theorem RemixContext_equality (address port address' port' : value) :
  let c := RemixContext address port in
  let c' := RemixContext address' port' in
  RemixContext_address c = Some address
  /\ RemixContext_port c = Some port
  /\ py_eq c c = true
  /\ py_eq c (tuple [address; port]) = true
  /\ py_eq c c' = py_eq address address' && py_eq port port'
  /\ py_ne c c' = negb (py_eq c c').
Proof.
  intros c c'. split; [reflexivity |]. split; [reflexivity |].
  assert (forall cl a p a' p',
            py_eq (RemixContext a p) (VTuple cl [a'; p']) = py_eq a a' && py_eq p p')
    as Hpair.
  { intros cl a p a' p'. rewrite !py_eq_eq_method. simpl.
    destruct (eq_method a a') as [[|] |]; try reflexivity.
    destruct (eq_method p p') as [[|] |]; reflexivity. }
  assert (forall v, py_eq v v = true) as Hrefl.
  { intros v. rewrite py_eq_eq_method, eq_method_refl. reflexivity. }
  split; [apply Hrefl |]. split.
  - unfold c, tuple. rewrite Hpair, !Hrefl. reflexivity.
  - split; [apply Hpair |].
    unfold py_ne, py_eq, c, c'. simpl.
    destruct (eq_method address address') as [[|] |]; reflexivity.
Qed.

(** X8. [RestAPIDetails.get_address] hands its two inputs on unchanged,
    whatever they are (the bounds the schema declares for the port are not
    checked when the node runs), and [StartContext] fed with its two
    outputs builds the context of that address and port. *)
Theorem RestAPIDetails_then_StartContext (CONTEXT_TYPE : value) (PREFIX_MENU : string)
    (address port : value) (self : instance) :
  run (RestAPIDetails PREFIX_MENU) {[ "address" := address; "port" := port ]} self
  = (self, Ok (tuple [address; port]))
  /\ (r ← run (RestAPIDetails PREFIX_MENU) {[ "address" := address; "port" := port ]};
      a ← lift (from_option Ok (Err IndexError) (output_slot 0 r));
      p ← lift (from_option Ok (Err IndexError) (output_slot 1 r));
      c ← run (StartContext CONTEXT_TYPE PREFIX_MENU) {[ "address" := a; "port" := p ]};
      lift (from_option Ok (Err IndexError) (output_slot 0 c))) self
     = (self, Ok (RemixContext address port)).
Proof.
  split; [apply run_RestAPIDetails |].
  unfold mbind, M_bind. rewrite run_RestAPIDetails. simpl.
  rewrite run_StartContext. reflexivity.
Qed.

(** ** The match-all class *)

(** X9. The override of [AnyType] holds for every instance of the class
    and for nothing else: an [AnyType] of any contents is never unequal to
    any object, on either side of [!=]; two plain strings are unequal
    exactly when their contents differ; and [==] between an [AnyType] and a
    string compares the contents. *)
Theorem AnyType_instances (s t u : string) (v : value) :
  py_ne (VStr AnyTypeCls s) v = false
  /\ py_ne v (VStr AnyTypeCls s) = false
  /\ py_ne (str t) (str u) = negb (String.eqb t u)
  /\ py_eq (VStr AnyTypeCls s) (str t) = String.eqb s t
  /\ py_eq (str t) (VStr AnyTypeCls s) = String.eqb t s.
Proof.
  split; [reflexivity |]. split; [| repeat split].
  unfold py_ne.
  destruct v as [| b | z | c w | c items | items]; try reflexivity.
  destruct c; reflexivity.
Qed.

(** ** More on the class decorators *)

(** X10. [add_context_outputs] shifts every declared output by one place
    and puts the context in front: the type, the name and (where the class
    has [OUTPUT_IS_LIST]) the list flag of each original output are found
    one place further, the new first output is no list, a class without
    [OUTPUT_IS_LIST] stays without, and nothing else of the class changes.
    Applied twice it adds two context outputs. *)
Theorem add_context_outputs_shifts (CONTEXT_TYPE : value) (cls : node_class) (i : nat) :
  let cls' := add_context_outputs CONTEXT_TYPE cls in
  default [] (RETURN_TYPES cls') !! S i = default [] (RETURN_TYPES cls) !! i
  /\ default [] (RETURN_NAMES cls') !! S i = default [] (RETURN_NAMES cls) !! i
  /\ default [] (RETURN_TYPES cls') !! 0%nat = Some CONTEXT_TYPE
  /\ default [] (RETURN_NAMES cls') !! 0%nat = Some "context"
  /\ match OUTPUT_IS_LIST cls with
     | None => OUTPUT_IS_LIST cls' = None
     | Some l =>
         exists l', OUTPUT_IS_LIST cls' = Some l'
                    /\ l' !! 0%nat = Some false
                    /\ l' !! S i = l !! i
                    /\ (length l = length (default [] (RETURN_TYPES cls)) ->
                        length l' = length (default [] (RETURN_TYPES cls')))
     end
  /\ (INPUT_TYPES cls' = INPUT_TYPES cls /\ FUNCTION cls' = FUNCTION cls
      /\ methods cls' = methods cls /\ CATEGORY cls' = CATEGORY cls
      /\ INPUT_IS_LIST cls' = INPUT_IS_LIST cls /\ OUTPUT_NODE cls' = OUTPUT_NODE cls)
  /\ RETURN_TYPES (add_context_outputs CONTEXT_TYPE cls')
     = Some (CONTEXT_TYPE :: CONTEXT_TYPE :: default [] (RETURN_TYPES cls)).
Proof.
  intros cls'. unfold cls', add_context_outputs. simpl.
  repeat (split; [reflexivity |]).
  split; [| split; [repeat split | reflexivity]].
  destruct (OUTPUT_IS_LIST cls) as [l |]; [| reflexivity].
  eexists. split; [reflexivity |]. split; [reflexivity |]. split; [reflexivity |].
  simpl. intros ->. reflexivity.
Qed.


(** X12. The decorator is not to be applied twice: the class then declares
    two context outputs, and every call of its execution method raises
    [KeyError], since the outer wrapper takes ["context"] and
    ["enable_this_node"] out of the keyword arguments before the inner
    wrapper looks for them. *)
Theorem decorating_twice_breaks_calls (CONTEXT_TYPE : value)
    (merge_dict : schema -> schema -> schema) (cls cls' cls'' : node_class)
    (kw : kwargs) (self : instance) :
  add_context_input_enabled_and_output CONTEXT_TYPE merge_dict cls = Ok cls' ->
  add_context_input_enabled_and_output CONTEXT_TYPE merge_dict cls' = Ok cls'' ->
  RETURN_TYPES cls''
  = Some (CONTEXT_TYPE :: CONTEXT_TYPE :: default [] (RETURN_TYPES cls))
  /\ exists self' key,
       run cls'' kw self = (self', Err (KeyError key))
       /\ (key = "context" \/ key = "enable_this_node").
Proof.
  intros H1 H2.
  destruct (decorator_wraps_function _ _ _ _ H1) as (f & Hf & _ & Hw1).
  destruct (decorator_wraps_function _ _ _ _ H2) as (f' & Hf' & _ & Hw2).
  rewrite Hw1 in Hf'. injection Hf' as <-.
  split.
  - revert H1 H2. unfold add_context_input_enabled_and_output. simpl.
    destruct (methods cls !! FUNCTION cls); [| discriminate].
    intros [= <-]. simpl.
    destruct (<[FUNCTION cls := _]> (methods cls) !! FUNCTION cls); [| discriminate].
    intros [= <-]. reflexivity.
  - unfold run. rewrite Hw2. rewrite wrapper_unfold.
    destruct (kw !! "context") as [c |]; [| eauto 6].
    destruct (kw !! "enable_this_node") as [e |]; [| eauto 6].
    rewrite wrapper_unfold.
    rewrite lookup_delete_ne by done. rewrite lookup_delete_eq. eauto 6.
Qed.

Lemma decorating_twice_breaks_calls_witness :
  exists cls' cls'' self' key,
    add_context_input_enabled_and_output (str "CONTEXT") utils_merge_dict
      (InvertBool "RTX Remix") = Ok cls'
    /\ add_context_input_enabled_and_output (str "CONTEXT") utils_merge_dict cls'
       = Ok cls''
    /\ run cls''
         {[ "context" := RemixContext (str "10.0.0.5") (VInt 8011);
            "enable_this_node" := VBool true; "value" := VBool true ]} ∅
       = (self', Err (KeyError key)).
Proof.
  destruct (add_context_input_enabled_and_output (str "CONTEXT") utils_merge_dict
              (InvertBool "RTX Remix")) as [cls' |] eqn:H1; [| discriminate H1].
  destruct (add_context_input_enabled_and_output (str "CONTEXT") utils_merge_dict cls')
    as [cls'' |] eqn:H2.
  - destruct (decorating_twice_breaks_calls (str "CONTEXT") utils_merge_dict
                (InvertBool "RTX Remix") cls' cls''
                {[ "context" := RemixContext (str "10.0.0.5") (VInt 8011);
                   "enable_this_node" := VBool true; "value" := VBool true ]} ∅ H1 H2)
      as (_ & self' & key & Hrun & _).
    exists cls', cls'', self', key. auto.
  - exfalso. revert H1 H2. unfold add_context_input_enabled_and_output. simpl.
    intros [= <-]. simpl. discriminate.
Defined.

(** ** More on the wrapped execution method *)

(** X13. What the original function sees of a wrapped call that carries
    both keys: the positional arguments as given; the keyword arguments
    without ["context"] and ["enable_this_node"] and otherwise as given; and
    an instance whose [context] and [enable_this_node] attributes are the
    two values and whose other attributes are as before.  The wrapper
    removes nothing afterwards: the instance is left as the original
    function leaves it. *)
Theorem wrapper_calls_original (f : method) (args : list value) (kw : kwargs)
    (self : instance) (C flag : value) :
  kw !! "context" = Some C ->
  kw !! "enable_this_node" = Some flag ->
  exists (rest : kwargs) (stored : instance),
    ContextExecutionFuncWrapper__get__ {| func := f |} args kw self
    = ((f args rest stored).1,
       result_bind (f args rest stored).2 (py_add (tuple [C])))
    /\ rest !! "context" = None
    /\ rest !! "enable_this_node" = None
    /\ (forall k, k <> "context" -> k <> "enable_this_node" -> rest !! k = kw !! k)
    /\ stored !! "context" = Some C
    /\ stored !! "enable_this_node" = Some flag
    /\ (forall k, k <> "context" -> k <> "enable_this_node" -> stored !! k = self !! k).
Proof.
  intros Hc He.
  exists (delete "enable_this_node" (delete "context" kw)),
         (<["enable_this_node" := flag]> (<["context" := C]> self)).
  split; [| split; [| split; [| split; [| split; [| split]]]]].
  - rewrite wrapper_unfold, Hc, He.
    destruct (f args _ _) as [s [r | x]]; reflexivity.
  - rewrite lookup_delete_ne by done. apply lookup_delete_eq.
  - apply lookup_delete_eq.
  - intros k H1 H2. rewrite !lookup_delete_ne by congruence. reflexivity.
  - rewrite lookup_insert_ne by done. apply lookup_insert_eq.
  - apply lookup_insert_eq.
  - intros k H1 H2. rewrite !lookup_insert_ne by congruence. reflexivity.
Qed.

Lemma wrapper_calls_original_witness :
  exists (rest : kwargs) (stored : instance),
    rest !! "value" = Some (VBool true)
    /\ rest !! "context" = None
    /\ stored !! "context" = Some (RemixContext (str "10.0.0.5") (VInt 8011)).
Proof.
  destruct (wrapper_calls_original returns_nothing []
              {[ "context" := RemixContext (str "10.0.0.5") (VInt 8011);
                 "enable_this_node" := VBool false; "value" := VBool true ]} ∅
              (RemixContext (str "10.0.0.5") (VInt 8011)) (VBool false))
    as (rest & stored & _ & Hrc & _ & Hrest & Hsc & _).
  - reflexivity.
  - reflexivity.
  - exists rest, stored. split; [| split; assumption].
    rewrite Hrest by done. reflexivity.
Defined.

(** X14. A decorated class whose original function returns as many
    outputs as the class declared returns as many outputs as the decorated
    class declares, the first of them the context it was given. *)
Theorem decorated_returns_declared_outputs (CONTEXT_TYPE : value)
    (merge_dict : schema -> schema -> schema) (cls cls' : node_class) (f : method)
    (kw : kwargs) (self self' : instance) (C flag : value)
    (c : tuple_class) (outputs : list value) :
  add_context_input_enabled_and_output CONTEXT_TYPE merge_dict cls = Ok cls' ->
  methods cls !! FUNCTION cls = Some f ->
  kw !! "context" = Some C ->
  kw !! "enable_this_node" = Some flag ->
  f [] (delete "enable_this_node" (delete "context" kw))
    (<["enable_this_node" := flag]> (<["context" := C]> self))
  = (self', Ok (VTuple c outputs)) ->
  length outputs = length (default [] (RETURN_TYPES cls)) ->
  exists items,
    run cls' kw self = (self', Ok (tuple items))
    /\ length items = length (default [] (RETURN_TYPES cls'))
    /\ items !! 0%nat = Some C
    /\ forall i, items !! S i = outputs !! i.
Proof.
  intros Hdec Hf Hc He Hcall Hlen.
  destruct (decorator_wraps_function _ _ _ _ Hdec) as (f' & Hf' & _ & Hw).
  rewrite Hf in Hf'. injection Hf' as <-.
  exists (C :: outputs). split; [| split; [| split]].
  - unfold run. rewrite Hw, wrapper_unfold, Hc, He, Hcall. reflexivity.
  - revert Hdec. unfold add_context_input_enabled_and_output. simpl.
    rewrite Hf. intros [= <-]. simpl. rewrite Hlen. reflexivity.
  - reflexivity.
  - reflexivity.
Qed.

Lemma decorated_returns_declared_outputs_witness :
  exists cls' items,
    add_context_input_enabled_and_output (str "CONTEXT") utils_merge_dict
      (StrToList "RTX Remix") = Ok cls'
    /\ run cls'
         {[ "context" := RemixContext (str "10.0.0.5") (VInt 8011);
            "enable_this_node" := VBool true; "value" := str "hello" ]} ∅
       = ({[ "context" := RemixContext (str "10.0.0.5") (VInt 8011);
             "enable_this_node" := VBool true ]},
          Ok (tuple items))
    /\ length items = 2%nat.
Proof.
  destruct (add_context_input_enabled_and_output (str "CONTEXT") utils_merge_dict
              (StrToList "RTX Remix")) as [cls' |] eqn:Hdec; [| discriminate Hdec].
  destruct (decorated_returns_declared_outputs (str "CONTEXT") utils_merge_dict
              (StrToList "RTX Remix") cls'
              (def [("value", None)] (fun vs =>
                 match vs with
                 | [v] => mret (StrToList_execute v)
                 | _ => raise TypeError
                 end))
              {[ "context" := RemixContext (str "10.0.0.5") (VInt 8011);
                 "enable_this_node" := VBool true; "value" := str "hello" ]} ∅
              {[ "context" := RemixContext (str "10.0.0.5") (VInt 8011);
                 "enable_this_node" := VBool true ]}
              (RemixContext (str "10.0.0.5") (VInt 8011)) (VBool true)
              PlainTuple [VList [str "hello"]] Hdec)
    as (items & Hrun & Hlen & _).
  - reflexivity.
  - reflexivity.
  - reflexivity.
  - vm_compute. reflexivity.
  - reflexivity.
  - exists cls', items. split; [reflexivity |]. split; [exact Hrun |].
    rewrite Hlen. revert Hdec. unfold add_context_input_enabled_and_output. simpl.
    intros [= <-]. reflexivity.
Defined.

(** ** Contexts passed along a graph *)





(** ** Wrapped input schemas *)

(** X16. [wrap_input_types_with] gives an [INPUT_TYPES] that declares what
    the schema builder declares and what the class declared, nothing more
    and nothing less; an entry of the class that the builder does not name
    is kept as it is.  Wrapped with [get_remix_api_inputs], a class
    requires an ["address"] and a ["port"]. *)
Theorem wrap_input_types_with_entries (merge_dict : schema -> schema -> schema)
    (func input_fn : unit -> schema) :
  merges_entries merge_dict ->
  (forall section name,
     is_Some (entry (wrap_input_types_with merge_dict func input_fn tt) section name)
     <-> is_Some (entry (input_fn tt) section name)
         \/ is_Some (entry (func tt) section name))
  /\ (forall section name spec,
        entry (func tt) section name = Some spec ->
        entry (input_fn tt) section name = None ->
        entry (wrap_input_types_with merge_dict func input_fn tt) section name
        = Some spec)
  /\ is_Some (entry (wrap_input_types_with merge_dict func get_remix_api_inputs tt)
                "required" "address")
  /\ is_Some (entry (wrap_input_types_with merge_dict func get_remix_api_inputs tt)
                "required" "port").
Proof.
  intros Hmerge. unfold wrap_input_types_with.
  split; [| split; [| split]].
  - intros section name. apply merge_dict_is_Some. exact Hmerge.
  - intros section name spec Hfunc Hnone.
    rewrite (merge_dict_right _ Hmerge) by exact Hnone. exact Hfunc.
  - apply (merge_dict_is_Some _ Hmerge). left. eexists. reflexivity.
  - apply (merge_dict_is_Some _ Hmerge). left. eexists. reflexivity.
Qed.

Lemma wrap_input_types_with_entries_witness :
  is_Some (entry (wrap_input_types_with utils_merge_dict
                    (INPUT_TYPES (StringConstant "RTX Remix")) get_remix_api_inputs tt)
             "required" "port").
Proof.
  exact (proj2 (proj2 (proj2
           (wrap_input_types_with_entries utils_merge_dict
              (INPUT_TYPES (StringConstant "RTX Remix")) get_remix_api_inputs
              utils_merge_dict_merges_entries)))).
Defined.

(** ** Nodes combined *)

(** X17. Inverting the selector of a [Switch] swaps its branches: a
    [Switch] whose selector comes from [InvertBool] applied to [v] returns
    what the [Switch] with the two branches exchanged returns on [v]
    itself, for a selector value of any type. *)
Theorem InvertBool_then_Switch (x y v : value) (rest : list value) :
  (output_slot 0 (InvertBool_execute v) ≫= fun inverted =>
     Some (Switch_execute x y (VList (inverted :: rest))))
  = Some (Switch_execute y x (VList (v :: rest))).
Proof.
  unfold InvertBool_execute, py_not, Switch_execute. simpl.
  destruct (truthy v); reflexivity.
Qed.
